(** * actionSHARK: the rate-limit-aware GitHub client

    A shallow embedding of [src/actionshark/github.py] (class [GitHub]) and
    the properties of its pagination engine.  Python integers are [Z],
    strings are [string], parsed JSON payloads are values of [Py.json].
    Wall-clock instants ([datetime] values whose microseconds the source
    always clears) are seconds on a common time line, in [Z].

    The methods mutate [self] and talk to the outside world (HTTP, the
    clock, standard output, the sink callback, the file system): they are
    written in a state-and-error monad over the instance and a [World]
    that scripts the inputs and records the outputs. *)

From Stdlib Require Import ZArith String List Lia Bool Ascii DecimalString.
Import ListNotations.
Local Open Scope string_scope.
Local Open Scope Z_scope.

(** ** Python values and builtins *)

Module Py.

(** What [json.load] / [response.json()] return (the payloads of this
    client hold no floating-point numbers). *)
#[local] Unset Elimination Schemes.
Inductive json : Type :=
| JNull
| JBool (b : bool)
| JNum (n : Z)
| JStr (s : string)
| JArr (items : list json)
| JObj (fields : list (string * json)).
#[local] Set Elimination Schemes.

(** Truth value testing: [None], [False], [0], [''], [[]] and [{}] are false. *)
Definition truthy (j : json) : bool :=
  match j with
  | JNull => false
  | JBool b => b
  | JNum n => negb (n =? 0)
  | JStr s => negb (s =? "")%string
  | JArr items => match items with [] => false | _ :: _ => true end
  | JObj fields => match fields with [] => false | _ :: _ => true end
  end.

(** Truth value of an [Optional[str]] argument. *)
Definition truthy_str (o : option string) : bool :=
  match o with
  | None => false
  | Some s => negb (s =? "")%string
  end.

(** Lookup in a dict given as its items; a later binding of a key
    overrides an earlier one, as when a dict is built from them. *)
Fixpoint dict_get {A : Type} (k : string) (items : list (string * A)) : option A :=
  match items with
  | [] => None
  | (k', v) :: items' =>
      match dict_get k items' with
      | Some w => Some w
      | None => if (k' =? k)%string then Some v else None
      end
  end.

(** [str(n)] for an int. *)
Definition str_Z (n : Z) : string := NilZero.string_of_int (Z.to_int n).

(** [str(b)] for a bool. *)
Definition str_bool (b : bool) : string := if b then "True" else "False".

(** [s * n] for a string. *)
Fixpoint str_mul (s : string) (n : nat) : string :=
  match n with
  | O => ""
  | S n' => s ++ str_mul s n'
  end.

(** [s[:-k]] for [k > 0]: all but the last [k] characters. *)
Definition drop_last (k : nat) (s : string) : string :=
  substring 0 (String.length s - k) s.

(** [s.split(sep)[-1]]: what follows the last separator. *)
Fixpoint last_segment (sep : ascii) (s acc : string) : string :=
  match s with
  | EmptyString => acc
  | String c s' =>
      if Ascii.eqb c sep then last_segment sep s' ""
      else last_segment sep s' (acc ++ String c "")
  end.

(** [template.format] with keyword arguments [kw], for templates whose
    only braces are those of replacement fields [{name}], as in
    [actions_url]: [field] is [Some n] while the characters of a field
    name are being read.  [None] stands for the [KeyError] of a name
    missing from [kw] and the [ValueError] of a brace left open. *)
Fixpoint format_from (template : string) (field : option string)
         (kw : list (string * string)) : option string :=
  match template, field with
  | EmptyString, None => Some ""
  | EmptyString, Some _ => None
  | String c rest, None =>
      if Ascii.eqb c "{" then format_from rest (Some "") kw
      else option_map (String c) (format_from rest None kw)
  | String c rest, Some name =>
      if Ascii.eqb c "}" then
        match dict_get name kw with
        | Some v => option_map (append v) (format_from rest None kw)
        | None => None
        end
      else format_from rest (Some (name ++ String c "")) kw
  end.

Definition format (template : string) (kw : list (string * string)) : option string :=
  format_from template None kw.

(** The string of the one character [\n]. *)
Definition newline : string := String (ascii_of_nat 10) EmptyString.

(** The exceptions the client can run into. *)
Inductive exn : Type :=
| TypeError | AttributeError | KeyError | ValueError | JSONDecodeError
| FileNotFoundError.

End Py.
Import Py.

(** ** Outcomes and the monad of the methods *)

(** How a call ends: it returns, the process exits ([sys.exit]), an
    exception propagates, or the loop bound of the model is used up. *)
Inductive res (A : Type) : Type :=
| Ok (a : A)
| Exit (code : Z)
| Raise (e : exn)
| OutOfFuel.
Arguments Ok {A} a.
Arguments Exit {A} code.
Arguments Raise {A} e.
Arguments OutOfFuel {A}.

(** A computation over a state of type [St]. *)
Definition M (St A : Type) : Type := St -> res A * St.

Definition ret {St A : Type} (a : A) : M St A := fun s => (Ok a, s).

Definition bind {St A B : Type} (m : M St A) (k : A -> M St B) : M St B :=
  fun s =>
    match m s with
    | (Ok a, s') => k a s'
    | (Exit c, s') => (Exit c, s')
    | (Raise e, s') => (Raise e, s')
    | (OutOfFuel, s') => (OutOfFuel, s')
    end.

Definition raise {St A : Type} (e : exn) : M St A := fun s => (Raise e, s).

(** [sys.exit(code)] *)
Definition sys_exit {St A : Type} (code : Z) : M St A := fun s => (Exit code, s).

Declare Scope py_scope.
Delimit Scope py_scope with py.
Notation "x <- m ;; k" := (bind m (fun x => k))
  (at level 61, m at next level, right associativity) : py_scope.
Notation "m ;; k" := (bind m (fun _ => k))
  (at level 61, right associativity) : py_scope.
Local Open Scope py_scope.

Definition when {St : Type} (b : bool) (m : M St unit) : M St unit :=
  if b then m else ret tt.

(** A pure step that may raise. *)
Definition lift_res {St A : Type} (r : exn + A) : M St A :=
  match r with
  | inl e => raise e
  | inr a => ret a
  end.

Definition or_raise {St A : Type} (e : exn) (o : option A) : M St A :=
  match o with
  | Some a => ret a
  | None => raise e
  end.

(** ** The world outside the process *)

(** A [requests] response: [status_code], [reason] and the body as
    [response.json()] decodes it ([None]: the body is not JSON). *)
Record Response : Type := {
  status_code : Z;
  reason : string;
  body : option json
}.

(** The [save_mongo] argument when it is a function. *)
Inductive Callable : Type := PyFunction (name : string).

(** One argument of a [print] call, or one piece of an f-string. *)
Inductive PrintArg : Type :=
| PStr (s : string)
| PInt (n : Z)
| PTime (t : Z)
| PResponse (status : Z).

Definition Headers : Type := list (string * string).

(** What the process does to the world, in order. *)
Inductive Event : Type :=
| EvGet (url : string) (headers : Headers)
| EvPrint (args : list PrintArg)
| EvSleep (seconds : Z)
| EvSink (f : Callable) (records : json) (action : option string)
| EvWrite (path : string) (content : json)
| EvMkdirs.

(** [http n url] is the server's answer to the [n]-th request of the run
    when it asks for [url]; [clock n] is the [n]-th reading of
    [datetime.now()]; [environ] and [files] are the process environment and
    the JSON files on disk. *)
Record World : Type := {
  http : nat -> string -> Response;
  sent : nat;
  clock : nat -> Z;
  ticks : nat;
  environ : list (string * string);
  files : list (string * json);
  trace : list Event
}.

(** The world once [e] has happened. *)
Definition log (e : Event) (w : World) : World :=
  {| http := http w; sent := sent w; clock := clock w; ticks := ticks w;
     environ := environ w; files := files w; trace := trace w ++ [e] |}.

(** The world once one more request has been answered. *)
Definition answered (w : World) : World :=
  {| http := http w; sent := S (sent w); clock := clock w; ticks := ticks w;
     environ := environ w; files := files w; trace := trace w |}.

(** The world once the clock has been read once more. *)
Definition ticked (w : World) : World :=
  {| http := http w; sent := sent w; clock := clock w; ticks := S (ticks w);
     environ := environ w; files := files w; trace := trace w |}.

Definition emit (e : Event) : M World unit := fun w => (Ok tt, log e w).

(** [requests.get(url, headers=headers)] *)
Definition requests_get (url : string) (headers : Headers) : M World Response :=
  fun w => (Ok (http w (sent w) url), answered (log (EvGet url headers) w)).

(** [dt.datetime.now().replace(microsecond=0)] *)
Definition datetime_now : M World Z :=
  fun w => (Ok (clock w (ticks w)), ticked w).

Definition print (args : list PrintArg) : M World unit := emit (EvPrint args).

(** [time.sleep(seconds)]: a negative argument is a [ValueError]. *)
Definition sleep (seconds : Z) : M World unit :=
  if seconds <? 0 then raise ValueError else emit (EvSleep seconds).

(** [response.json()] *)
Definition response_json {St : Type} (response : Response) : M St json :=
  or_raise JSONDecodeError (body response).

(** [j[key]] *)
Definition subscript (j : json) (key : string) : exn + json :=
  match j with
  | JObj fields =>
      match dict_get key fields with
      | Some v => inr v
      | None => inl KeyError
      end
  | _ => inl TypeError
  end.

(** [j.get(key)] *)
Definition get_method (j : json) (key : string) : exn + json :=
  match j with
  | JObj fields =>
      match dict_get key fields with
      | Some v => inr v
      | None => inr JNull
      end
  | _ => inl AttributeError
  end.

(** The numeric fields of the quota payload are used as integers. *)
Definition as_int (j : json) : exn + Z :=
  match j with
  | JNum n => inr n
  | _ => inl TypeError
  end.

(** ** The [GitHub] instance *)

(** The attributes of a constructed instance.  [total_requests],
    [current_action] and [limit_handler_counter] start from the class
    attributes ([0], [None], [0]); [token] is the name-mangled
    [self.__token]; [force_to_sleep] exists once [limit_handler] has run. *)
Record GitHub : Type := {
  token : json;
  save_mongo : option Callable;
  owner : string;
  repo : string;
  per_page : Z;
  page : Z;
  sleep_betw_requests : Z;
  verbose : bool;
  remaining : Z;
  reset_datetime : Z;
  limit : Z;
  last_stop_datetime : Z;
  force_to_sleep : option Z;
  total_requests : Z;
  current_action : option string;
  limit_handler_counter : Z
}.

Definition set_page (v : Z) (g : GitHub) : GitHub :=
  {| token := token g; save_mongo := save_mongo g; owner := owner g; repo := repo g;
     per_page := per_page g; page := v; sleep_betw_requests := sleep_betw_requests g;
     verbose := verbose g; remaining := remaining g; reset_datetime := reset_datetime g;
     limit := limit g; last_stop_datetime := last_stop_datetime g;
     force_to_sleep := force_to_sleep g; total_requests := total_requests g;
     current_action := current_action g; limit_handler_counter := limit_handler_counter g |}.

Definition set_remaining (v : Z) (g : GitHub) : GitHub :=
  {| token := token g; save_mongo := save_mongo g; owner := owner g; repo := repo g;
     per_page := per_page g; page := page g; sleep_betw_requests := sleep_betw_requests g;
     verbose := verbose g; remaining := v; reset_datetime := reset_datetime g;
     limit := limit g; last_stop_datetime := last_stop_datetime g;
     force_to_sleep := force_to_sleep g; total_requests := total_requests g;
     current_action := current_action g; limit_handler_counter := limit_handler_counter g |}.

Definition set_reset_datetime (v : Z) (g : GitHub) : GitHub :=
  {| token := token g; save_mongo := save_mongo g; owner := owner g; repo := repo g;
     per_page := per_page g; page := page g; sleep_betw_requests := sleep_betw_requests g;
     verbose := verbose g; remaining := remaining g; reset_datetime := v;
     limit := limit g; last_stop_datetime := last_stop_datetime g;
     force_to_sleep := force_to_sleep g; total_requests := total_requests g;
     current_action := current_action g; limit_handler_counter := limit_handler_counter g |}.

Definition set_limit (v : Z) (g : GitHub) : GitHub :=
  {| token := token g; save_mongo := save_mongo g; owner := owner g; repo := repo g;
     per_page := per_page g; page := page g; sleep_betw_requests := sleep_betw_requests g;
     verbose := verbose g; remaining := remaining g; reset_datetime := reset_datetime g;
     limit := v; last_stop_datetime := last_stop_datetime g;
     force_to_sleep := force_to_sleep g; total_requests := total_requests g;
     current_action := current_action g; limit_handler_counter := limit_handler_counter g |}.

Definition set_last_stop_datetime (v : Z) (g : GitHub) : GitHub :=
  {| token := token g; save_mongo := save_mongo g; owner := owner g; repo := repo g;
     per_page := per_page g; page := page g; sleep_betw_requests := sleep_betw_requests g;
     verbose := verbose g; remaining := remaining g; reset_datetime := reset_datetime g;
     limit := limit g; last_stop_datetime := v;
     force_to_sleep := force_to_sleep g; total_requests := total_requests g;
     current_action := current_action g; limit_handler_counter := limit_handler_counter g |}.

Definition set_force_to_sleep (v : option Z) (g : GitHub) : GitHub :=
  {| token := token g; save_mongo := save_mongo g; owner := owner g; repo := repo g;
     per_page := per_page g; page := page g; sleep_betw_requests := sleep_betw_requests g;
     verbose := verbose g; remaining := remaining g; reset_datetime := reset_datetime g;
     limit := limit g; last_stop_datetime := last_stop_datetime g;
     force_to_sleep := v; total_requests := total_requests g;
     current_action := current_action g; limit_handler_counter := limit_handler_counter g |}.

Definition set_total_requests (v : Z) (g : GitHub) : GitHub :=
  {| token := token g; save_mongo := save_mongo g; owner := owner g; repo := repo g;
     per_page := per_page g; page := page g; sleep_betw_requests := sleep_betw_requests g;
     verbose := verbose g; remaining := remaining g; reset_datetime := reset_datetime g;
     limit := limit g; last_stop_datetime := last_stop_datetime g;
     force_to_sleep := force_to_sleep g; total_requests := v;
     current_action := current_action g; limit_handler_counter := limit_handler_counter g |}.

Definition set_current_action (v : option string) (g : GitHub) : GitHub :=
  {| token := token g; save_mongo := save_mongo g; owner := owner g; repo := repo g;
     per_page := per_page g; page := page g; sleep_betw_requests := sleep_betw_requests g;
     verbose := verbose g; remaining := remaining g; reset_datetime := reset_datetime g;
     limit := limit g; last_stop_datetime := last_stop_datetime g;
     force_to_sleep := force_to_sleep g; total_requests := total_requests g;
     current_action := v; limit_handler_counter := limit_handler_counter g |}.

Definition set_limit_handler_counter (v : Z) (g : GitHub) : GitHub :=
  {| token := token g; save_mongo := save_mongo g; owner := owner g; repo := repo g;
     per_page := per_page g; page := page g; sleep_betw_requests := sleep_betw_requests g;
     verbose := verbose g; remaining := remaining g; reset_datetime := reset_datetime g;
     limit := limit g; last_stop_datetime := last_stop_datetime g;
     force_to_sleep := force_to_sleep g; total_requests := total_requests g;
     current_action := current_action g; limit_handler_counter := v |}.

(** A running program: the instance and the world around it. *)
Record Sys : Type := {
  self : GitHub;
  world : World
}.

(** Read [self]. *)
Definition get_self : M Sys GitHub := fun s => (Ok (self s), s).

(** Assign to an attribute of [self]. *)
Definition modify (f : GitHub -> GitHub) : M Sys unit :=
  fun s => (Ok tt, {| self := f (self s); world := world s |}).

(** Run a step that only touches the world. *)
Definition liftW {A : Type} (m : M World A) : M Sys A :=
  fun s =>
    let (r, w) := m (world s) in
    (r, {| self := self s; world := w |}).

(** ** Class attributes *)

Definition api_url : string := "https://api.github.com/".

Definition __headers : Headers := [("Accept", "application/vnd.github.v3+json")].

Definition actions_url : list (string * string) := [
  ("repos", "orgs/{org}/repos?per_page={per_page}");
  ("workflows", "repos/{owner}/{repo}/actions/workflows?per_page={per_page}");
  ("runs", "repos/{owner}/{repo}/actions/runs?per_page{per_page}");
  ("jobs", "repos/{owner}/{repo}/actions/runs/{run_id}/jobs?per_page{per_page}");
  ("artifacts", "repos/{owner}/{repo}/actions/runs/{run_id}/artifacts?per_page{per_page}")
].

(** [self.actions_url[action].format(...)] *)
Definition action_url (action : string) (kw : list (string * string)) : option string :=
  match dict_get action actions_url with
  | Some template => format template kw
  | None => None
  end.

(** ** The rate limiter *)

Definition get_dt_now : M Sys Z := liftW datetime_now.

(** [temp[key]] read as an integer. *)
Definition subscript_int (temp : json) (key : string) : exn + Z :=
  match subscript temp key with
  | inl e => inl e
  | inr v => as_int v
  end.

(** [response.json()['resources']['core']] *)
Definition core_of (j : json) : exn + json :=
  match subscript j "resources" with
  | inl e => inl e
  | inr resources => subscript resources "core"
  end.

Definition get_limit (verbose : bool) : M Sys unit :=
  response <- liftW (requests_get (api_url ++ "rate_limit") __headers) ;;
  if status_code response =? 200 then
    j <- response_json response ;;
    temp <- lift_res (core_of j) ;;
    r <- lift_res (subscript_int temp "remaining") ;;
    modify (set_remaining r) ;;
    t <- lift_res (subscript_int temp "reset") ;;
    modify (set_reset_datetime t) ;;
    l <- lift_res (subscript_int temp "limit") ;;
    modify (set_limit l) ;;
    when verbose (
      liftW (print [PStr (str_mul "__" 30)]) ;;
      liftW (print [PStr "Limit :"; PInt l]) ;;
      used <- lift_res (subscript_int temp "used") ;;
      liftW (print [PStr "Used :"; PInt used]) ;;
      liftW (print [PStr "Remaining :"; PInt r]) ;;
      liftW (print [PStr "Reset :"; PTime t]) ;;
      liftW (print [PStr (str_mul "__" 30)]))
  else
    liftW (print [PInt (status_code response)]) ;;
    liftW (print [PStr (reason response)]).

(** The refresh with its error margin: two requests less, two seconds more. *)
Definition update_limit_variables : M Sys unit :=
  get_limit false ;;
  g <- get_self ;;
  modify (set_remaining (remaining g - 2)) ;;
  g <- get_self ;;
  modify (set_reset_datetime (reset_datetime g + 2)) ;;
  when (verbose g) (liftW (print [PStr "Update limit handler variables."])).

(** [(a - b).seconds] of the [timedelta] between two instants: a
    [timedelta] is kept as days and [0 <= seconds < 86400]. *)
Definition timedelta_seconds (a b : Z) : Z := (a - b) mod 86400.

Definition limit_handler : M Sys unit :=
  now <- liftW datetime_now ;;
  modify (set_last_stop_datetime now) ;;
  g <- get_self ;;
  let secs := timedelta_seconds (reset_datetime g) (last_stop_datetime g) in
  modify (set_force_to_sleep (Some secs)) ;;
  modify (set_limit_handler_counter (limit_handler_counter g + 1)) ;;
  when (verbose g) (
    liftW (print [PStr (str_mul "\\" 40)]) ;;
    liftW (print [PStr "Limit handler is triggered, program will sleep for approximately ";
                  PInt secs; PStr " seconds."]) ;;
    liftW (print [PStr "Next Restart will be on "; PTime (reset_datetime g)]) ;;
    liftW (print [PStr (str_mul "//" 40)])) ;;
  liftW (sleep secs) ;;
  update_limit_variables ;;
  g <- get_self ;;
  when (verbose g) (
    liftW (print [PStr (str_mul "\\" 40)]) ;;
    liftW (print [PStr "Continue with "; PStr (match current_action g with
                                              | Some a => a
                                              | None => "None"
                                              end);
                  PStr " from page "; PInt (page g); PStr "..."]) ;;
    get_limit true ;;
    liftW (print [PStr (str_mul "//" 40)])).

(** ** The paginator *)

(** [save_JSON]: the page number goes into the file name. *)
Definition save_JSON (response : json) (save_path : string) : M Sys unit :=
  g <- get_self ;;
  let save_path := drop_last 5 save_path ++ "_" ++ str_Z (page g) ++ ".json" in
  liftW (emit (EvWrite save_path response)) ;;
  when (verbose g) (
    liftW (print [PStr "Response is saved in: "; PStr save_path]) ;;
    liftW (print [PStr (str_mul "__" (String.length save_path))])).

(** [self.save_mongo(response_JSON, self.current_action)]: calling [None]
    is a [TypeError]. *)
Definition call_save_mongo (response_JSON : json) : M Sys unit :=
  g <- get_self ;;
  match save_mongo g with
  | Some f => liftW (emit (EvSink f response_JSON (current_action g)))
  | None => raise TypeError
  end.

(** The test that sends an iteration to the limit handler. *)
Definition should_suspend (response : Response) (g : GitHub) : bool :=
  (status_code response =? 403) || (remaining g <=? 1).

(** The body of a page once parsed, with the envelope key applied when
    there is one. *)
Definition extract (checker : option string) (j : json) : exn + json :=
  if truthy_str checker then
    match checker with
    | Some key => get_method j key
    | None => inr j
    end
  else inr j.

(** How an iteration of the [while True] loop ends: [continue] or falling
    through, with the value [github_url] then has, or [break]. *)
Inductive loop_ctl : Type :=
| Continue (github_url : string)
| Break.

(** [f'&page={self.page}'] *)
Definition page_suffix (g : GitHub) : string := "&page=" ++ str_Z (page g).

(** One iteration of the loop of [paginating]. *)
Definition paginating_iter (github_url : string) (checker : option string)
           (save_path : string) : M Sys loop_ctl :=
  g <- get_self ;;
  let github_url := github_url ++ page_suffix g in
  response <- liftW (requests_get github_url __headers) ;;
  when (verbose g) (liftW (print [PStr "GitHub API URL:"; PStr github_url])) ;;
  if negb (status_code response =? 200) && negb (status_code response =? 403) then
    liftW (print [PStr "Error in request."]) ;;
    liftW (print [PInt (status_code response)]) ;;
    liftW (print [PResponse (status_code response)]) ;;
    sys_exit 1
  else if should_suspend response g then
    limit_handler ;;
    ret (Continue github_url)
  else
    j <- response_json response ;;
    response_JSON <- lift_res (extract checker j) ;;
    if negb (truthy response_JSON) then
      when (verbose g) (
        liftW (print [PStr "Response is Empty ... Stopping."]) ;;
        liftW (print [PStr "NEXT ACTION:"; PStr (str_mul "> >" 30); PStr newline])) ;;
      ret Break
    else
      call_save_mongo response_JSON ;;
      save_JSON response_JSON save_path ;;
      g <- get_self ;;
      let github_url := drop_last (String.length (page_suffix g)) github_url in
      modify (set_page (page g + 1)) ;;
      liftW (sleep (sleep_betw_requests g)) ;;
      modify (set_total_requests (total_requests g + 1)) ;;
      modify (set_remaining (remaining g - 1)) ;;
      liftW (print [PStr "Reamining: "; PInt (remaining g - 1)]) ;;
      now <- get_dt_now ;;
      g <- get_self ;;
      when (now - 3600 >=? last_stop_datetime g) update_limit_variables ;;
      ret (Continue github_url).

(** [paginating]: the loop, for at most [fuel] iterations. *)
Fixpoint paginating (fuel : nat) (github_url : string) (checker : option string)
         (save_path : string) : M Sys unit :=
  match fuel with
  | O => fun s => (OutOfFuel, s)
  | S fuel' =>
      ctl <- paginating_iter github_url checker save_path ;;
      match ctl with
      | Break => ret tt
      | Continue github_url' => paginating fuel' github_url' checker save_path
      end
  end.

(** ** The action dispatcher *)

(** [save_path] when given, else the default path of the action. *)
Definition path_or (save_path : option string) (default : string) : string :=
  match save_path with
  | Some p => if truthy_str save_path then p else default
  | None => default
  end.

Definition get_owner_repostries (fuel : nat) (save_path : option string) : M Sys unit :=
  modify (set_current_action (Some "repos")) ;;
  modify (set_page 1) ;;
  g <- get_self ;;
  url <- or_raise KeyError
           (action_url "repos" [("org", owner g); ("per_page", str_Z (per_page g))]) ;;
  let github_url := api_url ++ url in
  let save_path := path_or save_path ("./data/repositories/" ++ owner g ++ "_repos.json") in
  paginating fuel github_url None save_path.

Definition get_workflows (fuel : nat) (save_path : option string) : M Sys unit :=
  modify (set_current_action (Some "workflows")) ;;
  modify (set_page 1) ;;
  g <- get_self ;;
  url <- or_raise KeyError
           (action_url "workflows"
              [("owner", owner g); ("repo", repo g); ("per_page", str_Z (per_page g))]) ;;
  let github_url := api_url ++ url in
  let save_path :=
    path_or save_path ("./data/workflows/" ++ owner g ++ "_" ++ repo g ++ "_workflows.json") in
  paginating fuel github_url (Some "workflows") save_path.

Definition get_runs (fuel : nat) (exclude_pull_requests : bool)
           (save_path : option string) : M Sys unit :=
  modify (set_current_action (Some "runs")) ;;
  modify (set_page 1) ;;
  g <- get_self ;;
  url <- or_raise KeyError
           (action_url "runs"
              [("owner", owner g); ("repo", repo g); ("per_page", str_Z (per_page g))]) ;;
  let url := url ++ "&exclude_pull_requests=" ++ str_bool exclude_pull_requests in
  let github_url := api_url ++ url in
  let save_path :=
    path_or save_path ("./data/runs/" ++ owner g ++ "_" ++ repo g ++ "_runs.json") in
  paginating fuel github_url (Some "workflow_runs") save_path.

(** Truth value of a [run_id]: [None] and [0] are false. *)
Definition truthy_id (run_id : option Z) : bool :=
  match run_id with
  | None => false
  | Some n => negb (n =? 0)
  end.

Definition get_jobs (fuel : nat) (run_id : option Z) (save_path : option string) : M Sys unit :=
  match run_id with
  | Some id =>
      if truthy_id run_id then
        modify (set_current_action (Some "jobs")) ;;
        modify (set_page 1) ;;
        g <- get_self ;;
        url <- or_raise KeyError
                 (action_url "jobs"
                    [("owner", owner g); ("repo", repo g); ("run_id", str_Z id);
                     ("per_page", str_Z (per_page g))]) ;;
        let github_url := api_url ++ url in
        let save_path :=
          path_or save_path ("./data/jobs/" ++ owner g ++ "_" ++ repo g ++ "_run_"
                             ++ str_Z id ++ "_jobs.json") in
        paginating fuel github_url (Some "jobs") save_path
      else
        liftW (print [PStr "Please make to sure to pass the owner, repo name, and run id."]) ;;
        sys_exit 1
  | None =>
      liftW (print [PStr "Please make to sure to pass the owner, repo name, and run id."]) ;;
      sys_exit 1
  end.

Definition get_artifacts (fuel : nat) (run_id : option Z) (save_path : option string)
  : M Sys unit :=
  match run_id with
  | Some id =>
      if truthy_id run_id then
        modify (set_current_action (Some "artifacts")) ;;
        modify (set_page 1) ;;
        g <- get_self ;;
        url <- or_raise KeyError
                 (action_url "artifacts"
                    [("owner", owner g); ("repo", repo g); ("run_id", str_Z id);
                     ("per_page", str_Z (per_page g))]) ;;
        let github_url := api_url ++ url in
        let save_path :=
          path_or save_path ("./data/artifacts/" ++ owner g ++ "_" ++ repo g ++ "_run_"
                             ++ str_Z id ++ "_artifacts.json") in
        paginating fuel github_url (Some "artifacts") save_path
      else
        liftW (print [PStr "Please make to sure to pass both the owner and repo names."]) ;;
        sys_exit 1
  | None =>
      liftW (print [PStr "Please make to sure to pass both the owner and repo names."]) ;;
      sys_exit 1
  end.

(** A discovered run and the object that lists them ([runs_object.objects()]). *)
Record Run : Type := { id : Z }.
Record RunsObject : Type := { objects : list Run }.

(** Truth value of the [runs_object] argument: [None] is false, an object
    that lists runs is true (were it an object that is false when it lists
    none, [get_all] would loop over no run and end the same way). *)
Definition truthy_runs (runs_object : option RunsObject) : bool :=
  match runs_object with
  | None => false
  | Some _ => true
  end.

(** [for x in xs: body(x)] *)
Fixpoint for_each {A : Type} (xs : list A) (body : A -> M Sys unit) : M Sys unit :=
  match xs with
  | [] => ret tt
  | x :: xs' => body x ;; for_each xs' body
  end.

Definition get_all (fuel : nat) (runs_object : option RunsObject) : M Sys unit :=
  get_owner_repostries fuel None ;;
  get_workflows fuel None ;;
  get_runs fuel false None ;;
  if negb (truthy_runs runs_object) then
    match runs_object with
    | None => raise AttributeError
    | Some r =>
        for_each (objects r) (fun run => get_jobs fuel (Some (id run)) None) ;;
        for_each (objects r) (fun run => get_artifacts fuel (Some (id run)) None)
    end
  else ret tt.

(** ** Construction *)

(** The arguments of [GitHub(...)]. *)
Record InitArgs : Type := {
  arg_owner : option string;
  arg_repo : option string;
  arg_per_page : Z;
  arg_file_path : option string;
  arg_env_variable : option string;
  arg_save_mongo : option Callable;
  arg_debug_mode : bool;
  arg_sleep_interval : Z;
  arg_verbose : bool
}.

(** The defaults of the signature of [__init__]. *)
Definition default_args : InitArgs :=
  {| arg_owner := None; arg_repo := None; arg_per_page := 100;
     arg_file_path := None; arg_env_variable := None; arg_save_mongo := None;
     arg_debug_mode := true; arg_sleep_interval := 2; arg_verbose := true |}.

Definition get_world : M World World := fun w => (Ok w, w).

(** The token, from the environment variable when one is named, else from
    the [access_token] key of the JSON file. *)
Definition load_token (a : InitArgs) : M World json :=
  if truthy_str (arg_env_variable a) then
    w <- get_world ;;
    ret (match arg_env_variable a with
         | Some name =>
             match dict_get name (environ w) with
             | Some v => JStr v
             | None => JNull
             end
         | None => JNull
         end)
  else
    match arg_file_path a with
    | None => raise AttributeError
    | Some file_path =>
        if negb (last_segment "." file_path "" =? "json")%string then
          print [PStr "Please pass a json file path or add file extention in case the file is json."] ;;
          sys_exit 1
        else
          w <- get_world ;;
          lines <- or_raise FileNotFoundError (dict_get file_path (files w)) ;;
          tok <- lift_res (get_method lines "access_token") ;;
          if negb (truthy tok) then
            print [PStr "Please set the token key to access_token."] ;;
            sys_exit 1
          else ret tok
    end.

(** [__init__]; the messages are printed without the quotation marks the
    source puts around some of their words.  Its last steps are [self.update_limit_variables()] on the
    instance under construction, which has no [remaining],
    [reset_datetime] or [limit] yet (when the quota request fails,
    [self.remaining -= 2] is an [AttributeError]), and the first
    [last_stop_datetime]. *)
Definition __init__ (a : InitArgs) : M World GitHub :=
  when (arg_debug_mode a) (emit EvMkdirs) ;;
  if negb (truthy_str (arg_file_path a)) && negb (truthy_str (arg_env_variable a)) then
    print [PStr "ERROR: Add the path to JSON file with Access Token"] ;;
    sys_exit 1
  else
  match arg_owner a, arg_repo a with
  | Some owner_name, Some repo_name =>
    if negb (truthy_str (arg_owner a)) || negb (truthy_str (arg_repo a)) then
      print [PStr "Please make to sure to pass both the owner and repo names."] ;;
      sys_exit 1
    else
      tok <- load_token a ;;
      if negb (truthy tok) then
        print [PStr "ERROR retriving token, please make sure you set the file_path or env_variable correctly."] ;;
        sys_exit 1
      else
        response <- requests_get (api_url ++ "rate_limit") __headers ;;
        if status_code response =? 200 then
          j <- response_json response ;;
          temp <- lift_res (core_of j) ;;
          r <- lift_res (subscript_int temp "remaining") ;;
          t <- lift_res (subscript_int temp "reset") ;;
          l <- lift_res (subscript_int temp "limit") ;;
          when (arg_verbose a) (print [PStr "Update limit handler variables."]) ;;
          now <- datetime_now ;;
          ret {| token := tok;
                 save_mongo := arg_save_mongo a;
                 owner := owner_name;
                 repo := repo_name;
                 per_page := arg_per_page a;
                 page := 1;
                 sleep_betw_requests := arg_sleep_interval a;
                 verbose := arg_verbose a;
                 remaining := r - 2;
                 reset_datetime := t + 2;
                 limit := l;
                 last_stop_datetime := now;
                 force_to_sleep := None;
                 total_requests := 0;
                 current_action := None;
                 limit_handler_counter := 0 |}
        else
          print [PInt (status_code response)] ;;
          print [PStr (reason response)] ;;
          raise AttributeError
  | _, _ =>
    print [PStr "Please make to sure to pass both the owner and repo names."] ;;
    sys_exit 1
  end.

(** * Properties *)

(** ** What is observed of a run *)

(** The server's answer to the request that an iteration of [paginating]
    started in [s] with [github_url] sends. *)
Definition response_of (github_url : string) (s : Sys) : Response :=
  http (world s) (sent (world s)) (github_url ++ page_suffix (self s)).

(** The outcome of a run and the state it leaves. *)
Definition outcome {A : Type} (m : M Sys A) (s : Sys) : res A := fst (m s).
Definition after {A : Type} (m : M Sys A) (s : Sys) : Sys := snd (m s).

(** The sink calls and file writes of a trace. *)
Definition is_persist (e : Event) : bool :=
  match e with
  | EvSink _ _ _ | EvWrite _ _ => true
  | _ => false
  end.

Definition persisted (s : Sys) : list Event := filter is_persist (trace (world s)).

(** The sleeps of a trace. *)
Definition is_sleep (e : Event) : bool :=
  match e with
  | EvSleep _ => true
  | _ => false
  end.

Definition slept (s : Sys) : list Event := filter is_sleep (trace (world s)).

(** The requests that carry an [Authorization] header. *)
Definition is_authorized (e : Event) : bool :=
  match e with
  | EvGet _ headers =>
      match dict_get "Authorization" headers with
      | Some _ => true
      | None => false
      end
  | _ => false
  end.

Definition authorized (s : Sys) : list Event := filter is_authorized (trace (world s)).

(** The URLs requested, in order. *)
Fixpoint urls (t : list Event) : list string :=
  match t with
  | [] => []
  | EvGet url _ :: t' => url :: urls t'
  | _ :: t' => urls t'
  end.

(** The requests of a trace, each with the headers it was sent with. *)
Fixpoint requests (t : list Event) : list (string * Headers) :=
  match t with
  | [] => []
  | EvGet url headers :: t' => (url, headers) :: requests t'
  | _ :: t' => requests t'
  end.

(** ** The states an iteration passes through *)

(** The state of an iteration when it comes to the tests on the status:
    the request is recorded and counted, and announced when [verbose]. *)
Definition requested (github_url : string) (s : Sys) : Sys :=
  let url := github_url ++ page_suffix (self s) in
  let w := answered (log (EvGet url __headers) (world s)) in
  {| self := self s;
     world := if verbose (self s)
              then log (EvPrint [PStr "GitHub API URL:"; PStr url]) w
              else w |}.

(** The state an iteration stops the loop in, on an empty page: nothing but
    the request, and two lines of output when [verbose]. *)
Definition stopped (github_url : string) (s : Sys) : Sys :=
  let r := requested github_url s in
  {| self := self s;
     world := if verbose (self s)
              then log (EvPrint [PStr "NEXT ACTION:"; PStr (str_mul "> >" 30); PStr newline])
                       (log (EvPrint [PStr "Response is Empty ... Stopping."]) (world r))
              else world r |}.

(** The file [save_JSON] writes a page to. *)
Definition page_file (save_path : string) (g : GitHub) : string :=
  drop_last 5 save_path ++ "_" ++ str_Z (page g) ++ ".json".

(** An iteration suspends: it calls the limit handler, which counts its
    calls, and, when the handler returns, goes round the loop again
    ([continue]) for the page it was on. *)
Definition suspends (github_url : string) (checker : option string) (save_path : string)
           (s : Sys) : Prop :=
  let m := paginating_iter github_url checker save_path in
  limit_handler_counter (self (after m s)) = limit_handler_counter (self s) + 1
  /\ page (self (after m s)) = page (self s)
  /\ forall ctl, outcome m s = Ok ctl -> exists github_url', ctl = Continue github_url'.

(** ** Judgements on the methods *)

(** [wp m Q s]: running [m] from [s] ends in an outcome and a state that
    satisfy [Q]. *)
Definition wp {A : Type} (m : M Sys A) (Q : res A -> Sys -> Prop) (s : Sys) : Prop :=
  Q (outcome m s) (after m s).

(** [keeps obs m]: whatever [m] does and however it ends, [obs] is the same
    after as before. *)
Definition keeps {A X : Type} (obs : Sys -> X) (m : M Sys A) : Prop :=
  forall s, obs (after m s) = obs s.

(** [m], when it returns, returns [x]. *)
Definition returns_only {A : Type} (x : A) (m : M Sys A) : Prop :=
  forall s r, outcome m s = Ok r -> r = x.

(** ** The requests of the five actions, spelled out *)

(** The URL each entry point builds from its template, without the page
    suffix: [repos_url] for [get_owner_repostries], and so on. *)
Definition repos_url (g : GitHub) : string :=
  api_url ++ "orgs/" ++ owner g ++ "/repos?per_page=" ++ str_Z (per_page g).

Definition workflows_url (g : GitHub) : string :=
  api_url ++ "repos/" ++ owner g ++ "/" ++ repo g
  ++ "/actions/workflows?per_page=" ++ str_Z (per_page g).

Definition runs_url (g : GitHub) (exclude_pull_requests : bool) : string :=
  api_url ++ "repos/" ++ owner g ++ "/" ++ repo g
  ++ "/actions/runs?per_page" ++ str_Z (per_page g)
  ++ "&exclude_pull_requests=" ++ str_bool exclude_pull_requests.

Definition jobs_url (g : GitHub) (run_id : Z) : string :=
  api_url ++ "repos/" ++ owner g ++ "/" ++ repo g
  ++ "/actions/runs/" ++ str_Z run_id ++ "/jobs?per_page" ++ str_Z (per_page g).

Definition artifacts_url (g : GitHub) (run_id : Z) : string :=
  api_url ++ "repos/" ++ owner g ++ "/" ++ repo g
  ++ "/actions/runs/" ++ str_Z run_id ++ "/artifacts?per_page" ++ str_Z (per_page g).

(** The state in which an entry point hands over to [paginating]: the
    action is named and the cursor is back on the first page. *)
Definition entered (action : string) (s : Sys) : Sys :=
  {| self := set_page 1 (set_current_action (Some action) (self s)); world := world s |}.


(** The fetch operation [m], which requests [url] for [action], fails on
    an instance without a sink as soon as its first page has content:
    [TypeError], after nothing but the request. *)
Definition fails_without_sink (action : string) (checker : option string)
           (url : GitHub -> string) (m : nat -> M Sys unit) : Prop :=
  forall fuel s j c,
    save_mongo (self s) = None ->
    status_code (response_of (url (self s)) (entered action s)) = 200 ->
    remaining (self s) > 1 ->
    body (response_of (url (self s)) (entered action s)) = Some j ->
    extract checker j = inr c ->
    truthy c = true ->
    m (S fuel) s = (Raise TypeError, requested (url (self s)) (entered action s)).

(** [s.split(sep)] *)
Fixpoint split_on (sep : ascii) (s acc : string) : list string :=
  match s with
  | EmptyString => [acc]
  | String c s' =>
      if Ascii.eqb c sep then acc :: split_on sep s' EmptyString
      else split_on sep s' (acc ++ String c EmptyString)
  end.

(** What follows the first [sep] in [s]. *)
Fixpoint after_first (sep : ascii) (s : string) : option string :=
  match s with
  | EmptyString => None
  | String c s' => if Ascii.eqb c sep then Some s' else after_first sep s'
  end.

(** The [key=value] pairs of the query string of a URL: what follows the
    first [?], cut at each [&]. *)
Definition query_pairs (url : string) : list string :=
  match after_first "?" url with
  | Some q => split_on "&" q EmptyString
  | None => []
  end.

(** The URL carries [per_page=n] as one of its query parameters. *)
Definition carries_per_page (url : string) (n : Z) : bool :=
  existsb (String.eqb ("per_page=" ++ str_Z n)) (query_pairs url).

(** ** Sample instances and worlds *)

(** The instance of the [__main__] block of the source, for [apache] /
    [commons-lang], with the attributes that vary from run to run. *)
Definition apache (v : bool) (sink : option Callable) (rem reset : Z) : GitHub :=
  {| token := JStr "ghp_token"; save_mongo := sink;
     owner := "apache"; repo := "commons-lang";
     per_page := 100; page := 1; sleep_betw_requests := 2; verbose := v;
     remaining := rem; reset_datetime := reset; limit := 5000;
     last_stop_datetime := 1000; force_to_sleep := None;
     total_requests := 0; current_action := Some "workflows";
     limit_handler_counter := 0 |}.

Definition to_mongo : Callable := PyFunction "save_mongo".

Definition reply (code : Z) (b : option json) : Response :=
  {| status_code := code; reason := "reason"; body := b |}.

(** The payload of [rate_limit]. *)
Definition quota_body (r t l : Z) : json :=
  JObj [("resources",
         JObj [("core", JObj [("limit", JNum l); ("used", JNum (l - r));
                               ("remaining", JNum r); ("reset", JNum t)])])].

(** A server that answers the [n]-th request with the [n]-th reply of a
    script, and with an empty object once the script is over. *)
Definition script (rs : list Response) : nat -> string -> Response :=
  fun n _ => nth n rs (reply 200 (Some (JObj []))).

(** A world whose clock reads [now], [now + 1], ... *)
Definition world_at (now : Z) (rs : list Response) : World :=
  {| http := script rs; sent := 0; clock := fun n => now + Z.of_nat n; ticks := 0;
     environ := [("GITHUB_Token", "ghp_token")]; files := []; trace := [] |}.

Definition start (g : GitHub) (now : Z) (rs : list Response) : Sys :=
  {| self := g; world := world_at now rs |}.

Definition workflows_endpoint : string :=
  "https://api.github.com/repos/apache/commons-lang/actions/workflows?per_page=100".

Definition one_workflow : json := JObj [("workflows", JArr [JObj [("id", JNum 7)]])].
Definition no_workflows : json := JObj [("workflows", JArr [])].

(** ** Sample states *)

Definition quota_reply : Response := reply 200 (Some (quota_body 4000 4600 5000)).

Definition workflows_path : string := "./data/workflows/apache_commons-lang_workflows.json".

(** Quota left, and the server answers 403. *)
Definition s_403 : Sys :=
  start (apache false (Some to_mongo) 10 2000) 1000 [reply 403 None; quota_reply].

(** No quota left, and the server answers 500. *)
Definition s_500 : Sys :=
  start (apache false (Some to_mongo) 0 2000) 1000 [reply 500 None].


(** Quota left, and the server answers with an empty page. *)
Definition s_last : Sys :=
  start (apache true (Some to_mongo) 10 2000) 1000 [reply 200 (Some no_workflows)].

(** The cached quota is down to 1, and the server answers with an empty
    page. *)
Definition s_last_deferred : Sys :=
  start (apache false (Some to_mongo) 1 2000) 1000 [reply 200 (Some no_workflows); quota_reply].

(** As [s_page], for an instance without a sink. *)
Definition s_no_sink : Sys :=
  start (apache true None 10 2000) 1000 [reply 200 (Some one_workflow)].

(** The handler is called at 1000, five seconds after the reset time the
    instance holds. *)
Definition s_late : Sys :=
  start (apache false (Some to_mongo) 1 995) 1000 [quota_reply].

(** The quota request is answered 500. *)
Definition s_quota_down : Sys :=
  start (apache false (Some to_mongo) 10 2000) 1000 [reply 500 None].

(** A server with nothing to list, and one discovered run. *)
Definition s_all : Sys := start (apache false (Some to_mongo) 10 2000) 1000 [].

Definition one_run : RunsObject := {| objects := [{| id := 7 |}] |}.

(** The construction of the [__main__] block:
    [GitHub(owner='apache', repo='commons-lang', env_variable='GITHUB_Token', verbose=True)]. *)
Definition main_args : InitArgs :=
  {| arg_owner := Some "apache"; arg_repo := Some "commons-lang";
     arg_per_page := arg_per_page default_args;
     arg_file_path := arg_file_path default_args;
     arg_env_variable := Some "GITHUB_Token";
     arg_save_mongo := arg_save_mongo default_args;
     arg_debug_mode := arg_debug_mode default_args;
     arg_sleep_interval := arg_sleep_interval default_args;
     arg_verbose := true |}.

(** The world of that construction: the quota request is answered, then a
    page of one workflow. *)
Definition main_world : World :=
  world_at 1000 [quota_reply; reply 200 (Some one_workflow)].

(** The instance [GitHub(...)] constructs, in the world it leaves, when
    it returns one. *)
Definition constructed (a : InitArgs) (w : World) : option Sys :=
  match __init__ a w with
  | (Ok g, w1) => Some {| self := g; world := w1 |}
  | _ => None
  end.

(** Construct as the [__main__] block does, then fetch the workflows. *)
Definition main_run (fuel : nat) : option (res unit * Sys) :=
  option_map (get_workflows fuel None) (constructed main_args main_world).

(** ** A weakest-precondition calculus for the methods *)

Section Calculus.
Context {A B : Type}.

Lemma wp_bind (m : M Sys A) (k : A -> M Sys B) (Q : res B -> Sys -> Prop) (s : Sys) :
  wp m (fun r s1 =>
          match r with
          | Ok a => wp (k a) Q s1
          | Exit c => Q (Exit c) s1
          | Raise e => Q (Raise e) s1
          | OutOfFuel => Q OutOfFuel s1
          end) s ->
  wp (bind m k) Q s.
Proof.
  unfold wp, outcome, after, bind.
  destruct (m s) as [[a | c | e | ] s1]; simpl; auto.
Qed.

Lemma wp_keeps {X : Type} (obs : Sys -> X) (m : M Sys A)
      (Q : res A -> Sys -> Prop) (s : Sys) :
  keeps obs m -> (forall r s1, obs s1 = obs s -> Q r s1) -> wp m Q s.
Proof. unfold wp, keeps. auto. Qed.

Lemma keeps_bind {X : Type} (obs : Sys -> X) (m : M Sys A) (k : A -> M Sys B) :
  keeps obs m -> (forall a, keeps obs (k a)) -> keeps obs (bind m k).
Proof.
  unfold keeps, after, bind. intros Hm Hk s. specialize (Hm s).
  destruct (m s) as [[a | c | e | ] s1]; simpl in *; auto.
  rewrite Hk. exact Hm.
Qed.

Lemma keeps_ret {X : Type} (obs : Sys -> X) (a : A) : keeps obs (ret a).
Proof. intro s. reflexivity. Qed.

Lemma keeps_raise {X : Type} (obs : Sys -> X) (e : exn) : keeps obs (@raise Sys A e).
Proof. intro s. reflexivity. Qed.

Lemma keeps_sys_exit {X : Type} (obs : Sys -> X) (c : Z) : keeps obs (@sys_exit Sys A c).
Proof. intro s. reflexivity. Qed.

Lemma keeps_lift_res {X : Type} (obs : Sys -> X) (r : exn + A) : keeps obs (lift_res r).
Proof. destruct r; intro s; reflexivity. Qed.

Lemma keeps_or_raise {X : Type} (obs : Sys -> X) (e : exn) (o : option A) :
  keeps obs (or_raise e o).
Proof. destruct o; intro s; reflexivity. Qed.

End Calculus.

Lemma keeps_when {X : Type} (obs : Sys -> X) (b : bool) (m : M Sys unit) :
  keeps obs m -> keeps obs (when b m).
Proof. destruct b; simpl; auto. intros _ s. reflexivity. Qed.

Lemma keeps_get_self {X : Type} (obs : Sys -> X) : keeps obs get_self.
Proof. intro s. reflexivity. Qed.

Lemma keeps_response_json {X : Type} (obs : Sys -> X) (r : Response) :
  keeps obs (response_json r).
Proof. unfold response_json. apply keeps_or_raise. Qed.

(** The structural steps of a [keeps] proof. *)
Ltac keeps_step :=
  match goal with
  | |- keeps _ (bind _ _) => apply keeps_bind; [ | intro ]
  | |- keeps _ (ret _) => apply keeps_ret
  | |- keeps _ (raise _) => apply keeps_raise
  | |- keeps _ (sys_exit _) => apply keeps_sys_exit
  | |- keeps _ (lift_res _) => apply keeps_lift_res
  | |- keeps _ (or_raise _ _) => apply keeps_or_raise
  | |- keeps _ (response_json _) => apply keeps_response_json
  | |- keeps _ (when _ _) => apply keeps_when
  | |- keeps _ get_self => apply keeps_get_self
  | |- keeps _ (if ?c then _ else _) => destruct c
  | |- keeps _ (match ?x with _ => _ end) => destruct x
  end.

(** *** Attributes of [self] that a method leaves alone *)

Section SelfFrame.
Context {X : Type} (f : GitHub -> X).

(** Attributes of [self] are out of reach of the world. *)
Lemma keeps_liftW_self {A : Type} (m : M World A) :
  keeps (fun s => f (self s)) (liftW m).
Proof. intro s. unfold after, liftW. destruct (m (world s)). reflexivity. Qed.

Lemma keeps_modify_self (u : GitHub -> GitHub) :
  (forall g, f (u g) = f g) -> keeps (fun s => f (self s)) (modify u).
Proof. intros H s. simpl. apply H. Qed.

Hypothesis f_remaining : forall v g, f (set_remaining v g) = f g.
Hypothesis f_reset_datetime : forall v g, f (set_reset_datetime v g) = f g.
Hypothesis f_limit : forall v g, f (set_limit v g) = f g.

Lemma get_limit_keeps_self (v : bool) : keeps (fun s => f (self s)) (get_limit v).
Proof.
  unfold get_limit.
  repeat first [ keeps_step | apply keeps_liftW_self | apply keeps_modify_self; auto ].
Qed.

Lemma update_limit_variables_keeps_self :
  keeps (fun s => f (self s)) update_limit_variables.
Proof.
  unfold update_limit_variables.
  repeat first [ keeps_step | apply get_limit_keeps_self
               | apply keeps_liftW_self | apply keeps_modify_self; auto ].
Qed.

Hypothesis f_last_stop_datetime : forall v g, f (set_last_stop_datetime v g) = f g.
Hypothesis f_force_to_sleep : forall v g, f (set_force_to_sleep v g) = f g.
Hypothesis f_limit_handler_counter : forall v g, f (set_limit_handler_counter v g) = f g.

Lemma limit_handler_keeps_self : keeps (fun s => f (self s)) limit_handler.
Proof.
  unfold limit_handler.
  repeat first [ keeps_step | apply get_limit_keeps_self
               | apply update_limit_variables_keeps_self
               | apply keeps_liftW_self | apply keeps_modify_self; auto ].
Qed.

End SelfFrame.

(** *** Events that a method does not produce *)

Section TraceFrame.
Variable p : Event -> bool.

Lemma keeps_modify_trace (u : GitHub -> GitHub) :
  keeps (fun s => filter p (trace (world s))) (modify u).
Proof. intro s. reflexivity. Qed.

Lemma keeps_emit (e : Event) :
  p e = false -> keeps (fun s => filter p (trace (world s))) (liftW (emit e)).
Proof.
  intros H s. unfold after. simpl. rewrite filter_app. simpl. rewrite H.
  apply app_nil_r.
Qed.

Lemma keeps_print (args : list PrintArg) :
  p (EvPrint args) = false -> keeps (fun s => filter p (trace (world s))) (liftW (print args)).
Proof. apply keeps_emit. Qed.

Lemma keeps_sleep (n : Z) :
  p (EvSleep n) = false -> keeps (fun s => filter p (trace (world s))) (liftW (sleep n)).
Proof.
  intros H. unfold sleep. destruct (n <? 0).
  - intro s. reflexivity.
  - apply keeps_emit. exact H.
Qed.

Lemma keeps_requests_get (url : string) (h : Headers) :
  p (EvGet url h) = false ->
  keeps (fun s => filter p (trace (world s))) (liftW (requests_get url h)).
Proof.
  intros H s. unfold after. simpl. rewrite filter_app. simpl. rewrite H.
  apply app_nil_r.
Qed.

Lemma keeps_datetime_now : keeps (fun s => filter p (trace (world s))) (liftW datetime_now).
Proof. intro s. reflexivity. Qed.

Hypothesis p_print : forall args, p (EvPrint args) = false.
Hypothesis p_get : forall url, p (EvGet url __headers) = false.

Lemma get_limit_keeps_trace (v : bool) :
  keeps (fun s => filter p (trace (world s))) (get_limit v).
Proof.
  unfold get_limit.
  repeat first [ keeps_step | apply keeps_modify_trace | apply keeps_print; auto
               | apply keeps_requests_get; auto ].
Qed.

Lemma update_limit_variables_keeps_trace :
  keeps (fun s => filter p (trace (world s))) update_limit_variables.
Proof.
  unfold update_limit_variables.
  repeat first [ keeps_step | apply get_limit_keeps_trace | apply keeps_modify_trace
               | apply keeps_print; auto ].
Qed.

Hypothesis p_sleep : forall n, p (EvSleep n) = false.

Lemma limit_handler_keeps_trace :
  keeps (fun s => filter p (trace (world s))) limit_handler.
Proof.
  unfold limit_handler.
  repeat first [ keeps_step | apply get_limit_keeps_trace
               | apply update_limit_variables_keeps_trace | apply keeps_modify_trace
               | apply keeps_datetime_now | apply keeps_sleep; auto
               | apply keeps_print; auto ].
Qed.

Hypothesis p_sink : forall f j a, p (EvSink f j a) = false.
Hypothesis p_write : forall path j, p (EvWrite path j) = false.

Lemma paginating_iter_keeps_trace (github_url : string) (checker : option string)
      (save_path : string) :
  keeps (fun s => filter p (trace (world s))) (paginating_iter github_url checker save_path).
Proof.
  unfold paginating_iter, save_JSON, call_save_mongo, get_dt_now.
  repeat first [ keeps_step | apply limit_handler_keeps_trace
               | apply update_limit_variables_keeps_trace | apply keeps_modify_trace
               | apply keeps_datetime_now | apply keeps_sleep; auto
               | apply keeps_print; auto | apply keeps_requests_get; auto
               | apply keeps_emit; auto ].
Qed.

Lemma paginating_keeps_trace (fuel : nat) :
  forall github_url checker save_path,
    keeps (fun s => filter p (trace (world s))) (paginating fuel github_url checker save_path).
Proof.
  induction fuel as [| fuel IH]; intros github_url checker save_path.
  - intro s. reflexivity.
  - simpl. apply keeps_bind.
    + apply paginating_iter_keeps_trace.
    + intros [u | ]; [ apply IH | apply keeps_ret ].
Qed.

End TraceFrame.

(** *** Steps whose effect is known *)

Lemma wp_ret {A : Type} (a : A) (Q : res A -> Sys -> Prop) (s : Sys) :
  Q (Ok a) s -> wp (ret a) Q s.
Proof. exact (fun H => H). Qed.

Lemma wp_get_self (Q : res GitHub -> Sys -> Prop) (s : Sys) :
  Q (Ok (self s)) s -> wp get_self Q s.
Proof. exact (fun H => H). Qed.

Lemma wp_modify (u : GitHub -> GitHub) (Q : res unit -> Sys -> Prop) (s : Sys) :
  Q (Ok tt) {| self := u (self s); world := world s |} -> wp (modify u) Q s.
Proof. exact (fun H => H). Qed.

Lemma wp_emit (e : Event) (Q : res unit -> Sys -> Prop) (s : Sys) :
  Q (Ok tt) {| self := self s; world := log e (world s) |} -> wp (liftW (emit e)) Q s.
Proof. exact (fun H => H). Qed.

Lemma wp_print (args : list PrintArg) (Q : res unit -> Sys -> Prop) (s : Sys) :
  Q (Ok tt) {| self := self s; world := log (EvPrint args) (world s) |} ->
  wp (liftW (print args)) Q s.
Proof. exact (fun H => H). Qed.

Lemma wp_requests_get (url : string) (h : Headers) (Q : res Response -> Sys -> Prop)
      (s : Sys) :
  Q (Ok (http (world s) (sent (world s)) url))
    {| self := self s; world := answered (log (EvGet url h) (world s)) |} ->
  wp (liftW (requests_get url h)) Q s.
Proof. exact (fun H => H). Qed.

Lemma wp_datetime_now (Q : res Z -> Sys -> Prop) (s : Sys) :
  Q (Ok (clock (world s) (ticks (world s)))) {| self := self s; world := ticked (world s) |} ->
  wp (liftW datetime_now) Q s.
Proof. exact (fun H => H). Qed.

Lemma wp_sleep (n : Z) (Q : res unit -> Sys -> Prop) (s : Sys) :
  0 <= n ->
  Q (Ok tt) {| self := self s; world := log (EvSleep n) (world s) |} ->
  wp (liftW (sleep n)) Q s.
Proof.
  intros Hn H. unfold wp, outcome, after, liftW, sleep.
  destruct (n <? 0) eqn:E; [ apply Z.ltb_lt in E; lia | exact H ].
Qed.

(** Read the attributes of [self] through the assignments made to it. *)
Ltac simpl_self :=
  cbn beta iota zeta delta
      [self world token save_mongo owner repo per_page page sleep_betw_requests verbose
       remaining reset_datetime limit last_stop_datetime force_to_sleep total_requests
       current_action limit_handler_counter
       set_page set_remaining set_reset_datetime set_limit set_last_stop_datetime
       set_force_to_sleep set_total_requests set_current_action set_limit_handler_counter].

(** The steps whose effect the rules above give. *)
Ltac steppable m :=
  lazymatch m with
  | bind ?a _ => steppable a
  | ret _ => idtac
  | get_self => idtac
  | modify _ => idtac
  | liftW (print _) => idtac
  | liftW (emit _) => idtac
  | liftW (requests_get _ _) => idtac
  | liftW datetime_now => idtac
  | get_dt_now => idtac
  | when true _ => idtac
  | when false _ => idtac
  end.

(** One step of a run whose effect is known. *)
Ltac wp_step :=
  lazymatch goal with
  | |- wp (bind ?m _) _ _ => steppable m; apply wp_bind
  | |- wp (ret _) _ _ => apply wp_ret
  | |- wp get_self _ _ => apply wp_get_self
  | |- wp (modify _) _ _ => apply wp_modify
  | |- wp (liftW (print _)) _ _ => apply wp_print
  | |- wp (liftW (emit _)) _ _ => apply wp_emit
  | |- wp (liftW (requests_get _ _)) _ _ => apply wp_requests_get
  | |- wp (liftW datetime_now) _ _ => apply wp_datetime_now
  | |- wp get_dt_now _ _ => apply wp_datetime_now
  | |- wp (when true _) _ _ => unfold when
  | |- wp (when false _) _ _ => unfold when
  end; simpl_self.

(** Run the steps that are known, up to a test on [verbose], and through
    it in either case. *)
Ltac wp_verbose :=
  repeat wp_step;
  lazymatch goal with
  | |- wp (bind (when ?b _) _) _ _ => destruct b eqn:?
  | |- wp (when ?b _) _ _ => destruct b eqn:?
  end; repeat wp_step.

(** The first steps of an iteration, up to the tests on the status. *)
Ltac wp_request := unfold paginating_iter; wp_verbose.

(** ** One iteration of [paginating], case by case *)

(** Settle the tests on a status that is known. *)
Ltac settle_status H :=
  rewrite ?H; cbn [negb andb orb Z.eqb Pos.eqb].

Lemma after_then_ret {A B : Type} (m : M Sys A) (b : B) (s : Sys) :
  after (m ;; ret b) s = after m s.
Proof.
  unfold after, bind. destruct (m s) as [[a | c | e | ] s1]; reflexivity.
Qed.

Lemma outcome_then_ret {A B : Type} (m : M Sys A) (b b' : B) (s : Sys) :
  outcome (m ;; ret b) s = Ok b' -> b' = b.
Proof.
  unfold outcome, bind. destruct (m s) as [[a | c | e | ] s1]; simpl; congruence.
Qed.

Lemma run_eta {A : Type} (m : M Sys A) (s : Sys) : (outcome m s, after m s) = m s.
Proof. unfold outcome, after. destruct (m s). reflexivity. Qed.

(** An iteration that is sent to the limit handler is the handler, run once
    the request has been made, followed by [continue] with the URL that
    has just been requested. *)
Lemma paginating_iter_suspend github_url checker save_path s :
  status_code (response_of github_url s) = 403
  \/ (status_code (response_of github_url s) = 200 /\ remaining (self s) <= 1) ->
  paginating_iter github_url checker save_path s
  = (limit_handler ;; ret (Continue (github_url ++ page_suffix (self s))))
      (requested github_url s).
Proof.
  intros H. unfold response_of in H.
  rewrite <- (run_eta (paginating_iter _ _ _)).
  change (wp (paginating_iter github_url checker save_path)
             (fun r s1 => (r, s1) = (limit_handler ;; ret (Continue (github_url ++ page_suffix (self s))))
                                      (requested github_url s)) s).
  wp_request; unfold should_suspend.
  all: destruct H as [H | [H Hr]]; settle_status H.
  all: try (apply Z.leb_le in Hr; rewrite Hr).
  all: cbn [orb]; unfold wp; rewrite run_eta; unfold requested.
  all: match goal with E : verbose _ = _ |- _ => rewrite E end; reflexivity.
Qed.

(** *** Strings *)

Lemma length_append (a b : string) :
  String.length (a ++ b) = (String.length a + String.length b)%nat.
Proof. induction a as [| c a IH]; simpl; [ reflexivity | now rewrite IH ]. Qed.

Lemma substring_append (a b : string) : substring 0 (String.length a) (a ++ b) = a.
Proof. induction a as [| c a IH]; simpl; [ now destruct b | now rewrite IH ]. Qed.

(** Cutting the suffix off gives the URL back. *)
Lemma drop_last_append (a b : string) : drop_last (String.length b) (a ++ b) = a.
Proof.
  unfold drop_last. rewrite length_append.
  replace (String.length a + String.length b - String.length b)%nat
    with (String.length a) by lia.
  apply substring_append.
Qed.

Lemma append_assoc (a b c : string) : ((a ++ b) ++ c = a ++ (b ++ c))%string.
Proof. induction a as [| x a IH]; simpl; [ reflexivity | now rewrite IH ]. Qed.

(** *** The limit handler *)

Ltac keeps_self :=
  repeat first [ keeps_step
               | apply get_limit_keeps_self; intros; reflexivity
               | apply update_limit_variables_keeps_self; intros; reflexivity
               | apply keeps_liftW_self
               | apply keeps_modify_self; intros; reflexivity ].

Ltac keeps_trace :=
  repeat first [ keeps_step
               | apply get_limit_keeps_trace; intros; reflexivity
               | apply update_limit_variables_keeps_trace; intros; reflexivity
               | apply keeps_modify_trace
               | apply keeps_datetime_now
               | apply keeps_print; reflexivity
               | apply keeps_sleep; reflexivity
               | apply keeps_emit; reflexivity
               | apply keeps_requests_get; reflexivity ].

Lemma timedelta_seconds_range (a b : Z) : 0 <= timedelta_seconds a b < 86400.
Proof. unfold timedelta_seconds. apply Z.mod_pos_bound. lia. Qed.

(** Every call of the limit handler is counted, once. *)
Lemma limit_handler_counts (s : Sys) :
  limit_handler_counter (self (after limit_handler s)) = limit_handler_counter (self s) + 1.
Proof.
  change (wp limit_handler
             (fun _ s1 => limit_handler_counter (self s1) = limit_handler_counter (self s) + 1) s).
  unfold limit_handler. repeat wp_step.
  apply (wp_keeps (fun s1 => limit_handler_counter (self s1))).
  - keeps_self.
  - intros _ s1 H. rewrite H. reflexivity.
Qed.

(** The handler sleeps once, for the seconds field of the difference
    between the reset time and the time it is called at. *)
Lemma limit_handler_sleeps (s : Sys) :
  slept (after limit_handler s)
  = (slept s ++ [EvSleep (timedelta_seconds (reset_datetime (self s))
                                            (clock (world s) (ticks (world s))))])%list.
Proof.
  change (wp limit_handler
             (fun _ s1 => slept s1 = (slept s ++
                [EvSleep (timedelta_seconds (reset_datetime (self s))
                                            (clock (world s) (ticks (world s))))])%list) s).
  unfold limit_handler. wp_verbose.
  all: apply wp_bind, wp_sleep; [ apply timedelta_seconds_range | ]; simpl_self.
  all: apply (wp_keeps slept); [ unfold slept; keeps_trace | ].
  all: intros _ s1 H; rewrite H; unfold slept; cbn [world log trace ticked].
  all: rewrite !filter_app; cbn [filter is_sleep]; rewrite ?app_nil_r; reflexivity.
Qed.

(** *** Iterations that are not sent to the limit handler *)

(** After the tests, settle the limiter test of an iteration with status 200 and
    quota left. *)
Ltac pass_limiter Hst Hrem :=
  unfold should_suspend; settle_status Hst;
  let E := fresh "E" in
  destruct (remaining _ <=? 1) eqn:E; [ apply Z.leb_le in E; lia | ];
  cbn [orb].

(** Parse a body that is known, and apply the envelope key. *)
Ltac parse_body Hb He :=
  unfold response_json; rewrite Hb; cbn [or_raise]; wp_step; wp_step;
  rewrite He; cbn [lift_res]; wp_step; wp_step.

(** An iteration that passes the limiter test does not call the limit handler. *)
Lemma paginating_iter_proceeds_counter github_url checker save_path s :
  status_code (response_of github_url s) = 200 ->
  remaining (self s) > 1 ->
  limit_handler_counter (self (after (paginating_iter github_url checker save_path) s))
  = limit_handler_counter (self s).
Proof.
  intros Hst Hrem. unfold response_of in Hst.
  change (wp (paginating_iter github_url checker save_path)
             (fun _ s1 => limit_handler_counter (self s1) = limit_handler_counter (self s)) s).
  wp_request; pass_limiter Hst Hrem.
  all: apply (wp_keeps (fun s1 => limit_handler_counter (self s1)));
    [ unfold call_save_mongo, save_JSON, get_dt_now; keeps_self | ].
  all: intros _ s1 H; exact H.
Qed.

(** An empty page: [break], with nothing done but the request. *)
Lemma paginating_iter_empty github_url checker save_path s j c :
  status_code (response_of github_url s) = 200 ->
  remaining (self s) > 1 ->
  body (response_of github_url s) = Some j ->
  extract checker j = inr c ->
  truthy c = false ->
  paginating_iter github_url checker save_path s = (Ok Break, stopped github_url s).
Proof.
  intros Hst Hrem Hb He Ht. unfold response_of in Hst, Hb.
  rewrite <- (run_eta (paginating_iter _ _ _)).
  match goal with
  | |- (outcome ?m ?s, after ?m ?s) = ?x => change (wp m (fun r s1 => (r, s1) = x) s)
  end.
  wp_request; pass_limiter Hst Hrem; parse_body Hb He; rewrite Ht; cbn [negb].
  all: repeat wp_step; unfold stopped, requested;
    match goal with E : verbose _ = _ |- _ => rewrite E end; reflexivity.
Qed.

(** A page with content and no sink: the call of [None] raises, with
    nothing done but the request. *)
Lemma paginating_iter_no_sink github_url checker save_path s j c :
  status_code (response_of github_url s) = 200 ->
  remaining (self s) > 1 ->
  body (response_of github_url s) = Some j ->
  extract checker j = inr c ->
  truthy c = true ->
  save_mongo (self s) = None ->
  paginating_iter github_url checker save_path s
  = (Raise TypeError, requested github_url s).
Proof.
  intros Hst Hrem Hb He Ht Hsink. unfold response_of in Hst, Hb.
  rewrite <- (run_eta (paginating_iter _ _ _)).
  match goal with
  | |- (outcome ?m ?s, after ?m ?s) = ?x => change (wp m (fun r s1 => (r, s1) = x) s)
  end.
  wp_request; pass_limiter Hst Hrem; parse_body Hb He; rewrite Ht; cbn [negb].
  all: unfold call_save_mongo; repeat wp_step; rewrite Hsink.
  all: unfold outcome, after, raise; cbn [fst snd].
  all: unfold requested;
    match goal with E : verbose _ = _ |- _ => rewrite E end; reflexivity.
Qed.

Lemma wp_conj {A : Type} (m : M Sys A) (Q1 Q2 : res A -> Sys -> Prop) (s : Sys) :
  wp m Q1 s -> wp m Q2 s -> wp m (fun r s1 => Q1 r s1 /\ Q2 r s1) s.
Proof. unfold wp. auto. Qed.

Lemma returns_ret {A : Type} (x : A) : returns_only x (ret x).
Proof. intros s r H. unfold outcome in H. simpl in H. congruence. Qed.

Lemma returns_bind {A B : Type} (x : B) (m : M Sys A) (k : A -> M Sys B) :
  (forall a, returns_only x (k a)) -> returns_only x (bind m k).
Proof.
  intros Hk s r. unfold outcome, bind.
  destruct (m s) as [[a | c | e | ] s1] eqn:E; simpl; try discriminate.
  apply Hk.
Qed.

Lemma wp_returns {A : Type} (x : A) (m : M Sys A) (s : Sys) :
  returns_only x m -> wp m (fun r _ => forall y, r = Ok y -> y = x) s.
Proof. intros H. unfold wp. intros y Hy. apply (H s). exact Hy. Qed.

(** A page with content and a sink: the page goes to the sink, then to
    its file; the cursor moves on by one and the loop goes on with the
    endpoint URL, whatever becomes of the rest of the iteration. *)
Lemma paginating_iter_consume github_url checker save_path s j c f :
  status_code (response_of github_url s) = 200 ->
  remaining (self s) > 1 ->
  body (response_of github_url s) = Some j ->
  extract checker j = inr c ->
  truthy c = true ->
  save_mongo (self s) = Some f ->
  wp (paginating_iter github_url checker save_path)
     (fun r s1 =>
        (page (self s1) = page (self s) + 1
         /\ forall ctl, r = Ok ctl -> ctl = Continue github_url)
        /\ persisted s1
           = (persisted s ++ [EvSink f c (current_action (self s));
                              EvWrite (page_file save_path (self s)) c])%list) s.
Proof.
  intros Hst Hrem Hb He Ht Hsink. unfold response_of in Hst, Hb.
  wp_request; pass_limiter Hst Hrem; parse_body Hb He; rewrite Ht; cbn [negb].
  all: unfold call_save_mongo; repeat wp_step; rewrite Hsink; repeat wp_step.
  all: unfold save_JSON; repeat wp_step;
    match goal with E : verbose _ = _ |- _ => rewrite E end; repeat wp_step.
  all: rewrite drop_last_append.
  all: apply wp_conj; [ apply wp_conj | ].
  all: try (apply (wp_keeps (fun s1 => page (self s1))); [ keeps_self | ];
            intros _ s1 H; rewrite H; reflexivity).
  all: try (apply wp_returns; repeat (apply returns_bind; intro); apply returns_ret).
  all: apply (wp_keeps persisted); [ unfold persisted; keeps_trace | ].
  all: intros _ s1 H; rewrite H; unfold persisted, page_file; cbn [world log trace answered].
  all: rewrite !filter_app; cbn [filter is_persist]; rewrite ?app_nil_r.
  all: rewrite <- ?app_assoc; reflexivity.
Qed.

(** ** The entry points *)

Lemma append_nil_r (a : string) : (a ++ "")%string = a.
Proof. induction a as [| c a IH]; simpl; [ reflexivity | now rewrite IH ]. Qed.

(** Unfold an entry point down to its call of [paginating]. *)
Ltac enter :=
  unfold bind, modify, get_self, or_raise, entered; cbn [fst snd self world];
  unfold action_url, repos_url, workflows_url, runs_url, jobs_url, artifacts_url;
  simpl_self;
  cbn [dict_get actions_url String.eqb Ascii.eqb Bool.eqb format format_from option_map append
       api_url];
  unfold ret; cbn beta iota;
  repeat (progress (rewrite ?append_assoc; cbn [append str_bool]));
  rewrite ?append_nil_r.

Lemma get_owner_repostries_eq fuel save_path s :
  get_owner_repostries fuel save_path s
  = paginating fuel (repos_url (self s)) None
      (path_or save_path ("./data/repositories/" ++ owner (self s) ++ "_repos.json"))
      (entered "repos" s).
Proof. unfold get_owner_repostries. enter. reflexivity. Qed.

Lemma get_workflows_eq fuel save_path s :
  get_workflows fuel save_path s
  = paginating fuel (workflows_url (self s)) (Some "workflows")
      (path_or save_path ("./data/workflows/" ++ owner (self s) ++ "_" ++ repo (self s)
                          ++ "_workflows.json"))
      (entered "workflows" s).
Proof. unfold get_workflows. enter. reflexivity. Qed.

Lemma get_runs_eq fuel exclude_pull_requests save_path s :
  get_runs fuel exclude_pull_requests save_path s
  = paginating fuel (runs_url (self s) exclude_pull_requests) (Some "workflow_runs")
      (path_or save_path ("./data/runs/" ++ owner (self s) ++ "_" ++ repo (self s)
                          ++ "_runs.json"))
      (entered "runs" s).
Proof. unfold get_runs. enter. reflexivity. Qed.

Lemma get_jobs_eq fuel run_id save_path s :
  run_id <> 0 ->
  get_jobs fuel (Some run_id) save_path s
  = paginating fuel (jobs_url (self s) run_id) (Some "jobs")
      (path_or save_path ("./data/jobs/" ++ owner (self s) ++ "_" ++ repo (self s)
                          ++ "_run_" ++ str_Z run_id ++ "_jobs.json"))
      (entered "jobs" s).
Proof.
  intros H. unfold get_jobs, truthy_id.
  destruct (run_id =? 0) eqn:E; [ apply Z.eqb_eq in E; contradiction | ].
  cbn [negb]. enter. reflexivity.
Qed.

Lemma get_artifacts_eq fuel run_id save_path s :
  run_id <> 0 ->
  get_artifacts fuel (Some run_id) save_path s
  = paginating fuel (artifacts_url (self s) run_id) (Some "artifacts")
      (path_or save_path ("./data/artifacts/" ++ owner (self s) ++ "_" ++ repo (self s)
                          ++ "_run_" ++ str_Z run_id ++ "_artifacts.json"))
      (entered "artifacts" s).
Proof.
  intros H. unfold get_artifacts, truthy_id.
  destruct (run_id =? 0) eqn:E; [ apply Z.eqb_eq in E; contradiction | ].
  cbn [negb]. enter. reflexivity.
Qed.

(** * The claims *)

(** What an iteration that is sent to the limit handler leaves and returns. *)
Lemma suspended_iteration github_url checker save_path s :
  status_code (response_of github_url s) = 403
  \/ (status_code (response_of github_url s) = 200 /\ remaining (self s) <= 1) ->
  after (paginating_iter github_url checker save_path) s
  = after limit_handler (requested github_url s)
  /\ forall ctl, outcome (paginating_iter github_url checker save_path) s = Ok ctl ->
                 ctl = Continue (github_url ++ page_suffix (self s)).
Proof.
  intros H. unfold after, outcome.
  rewrite (paginating_iter_suspend _ checker save_path _ H).
  split.
  - apply (after_then_ret limit_handler).
  - intros ctl. apply (outcome_then_ret limit_handler).
Qed.

Lemma limit_handler_keeps_page (s : Sys) :
  page (self (after limit_handler s)) = page (self s).
Proof. apply (limit_handler_keeps_self page); intros; reflexivity. Qed.

Lemma limit_handler_keeps_total_requests (s : Sys) :
  total_requests (self (after limit_handler s)) = total_requests (self s).
Proof. apply (limit_handler_keeps_self total_requests); intros; reflexivity. Qed.

(** C1 (amended).  On an iteration of [paginating] whose request is
    answered with status 200 or 403 (any other status ends the process
    before the test is reached), a suspend -- a call of the limit handler
    followed by [continue] for the same page -- occurs if and only if the
    status is 403 or the cached [remaining] is at most 1.  So a 403
    suspends whatever [remaining] is, and so does a 200 when
    [remaining <= 1]. *)
Theorem C1_suspend_iff_limit_test github_url checker save_path s :
  status_code (response_of github_url s) = 200
  \/ status_code (response_of github_url s) = 403 ->
  (suspends github_url checker save_path s
   <-> status_code (response_of github_url s) = 403 \/ remaining (self s) <= 1).
Proof.
  intros Hst. split.
  - intros [Hcount _].
    destruct Hst as [H200 | H403]; [ | left; exact H403 ].
    destruct (Z.le_gt_cases (remaining (self s)) 1) as [Hle | Hgt]; [ right; exact Hle | ].
    rewrite (paginating_iter_proceeds_counter _ checker save_path s H200) in Hcount by lia.
    lia.
  - intros Htest.
    assert (H : status_code (response_of github_url s) = 403
                \/ (status_code (response_of github_url s) = 200 /\ remaining (self s) <= 1)).
    { destruct Htest as [H403 | Hle]; [ left; exact H403 | ].
      destruct Hst as [H200 | H403]; [ right; split; assumption | left; exact H403 ]. }
    destruct (suspended_iteration github_url checker save_path s H) as [Hafter Hout].
    unfold suspends. cbv zeta. rewrite Hafter. split; [ | split ].
    + rewrite limit_handler_counts. reflexivity.
    + rewrite limit_handler_keeps_page. reflexivity.
    + intros ctl Hctl. eexists. apply Hout. exact Hctl.
Qed.

(** The server answers 403 while 10 requests remain: the iteration suspends. *)
Lemma C1_witness :
  (status_code (response_of workflows_endpoint s_403) = 200
   \/ status_code (response_of workflows_endpoint s_403) = 403)
  /\ (suspends workflows_endpoint (Some "workflows") workflows_path s_403
      <-> status_code (response_of workflows_endpoint s_403) = 403
          \/ remaining (self s_403) <= 1).
Proof.
  split.
  - right. reflexivity.
  - apply C1_suspend_iff_limit_test. right. reflexivity.
Defined.

(** C1 as stated fails where the status is neither 200 nor 403: with no
    quota left ([remaining = 0]) and a 500, the iteration prints the error
    and exits with status 1; the limit handler is not called. *)
Lemma C1_counterexample :
  status_code (response_of workflows_endpoint s_500) = 500
  /\ remaining (self s_500) = 0
  /\ outcome (paginating_iter workflows_endpoint (Some "workflows") workflows_path) s_500
     = Exit 1
  /\ ~ (suspends workflows_endpoint (Some "workflows") workflows_path s_500
        <-> status_code (response_of workflows_endpoint s_500) = 403
            \/ remaining (self s_500) <= 1).
Proof.
  split; [ reflexivity | ]. split; [ reflexivity | ]. split; [ reflexivity | ].
  intros [_ H].
  destruct H as [Hcount _].
  - right. vm_compute. discriminate.
  - vm_compute in Hcount. discriminate.
Qed.



(** C3 (what the code does).  [limit_handler] sleeps once, for the
    [seconds] field of [reset_datetime - now], which lies in [0, 86400):
    that is [max(0, reset_datetime - now)] while the reset is less than a
    day ahead, but once the reset time has passed it is a day minus the
    lateness, not 0.  Called five seconds after the reset time, the
    handler sleeps 86395 seconds before it refreshes the quota. *)
Theorem C3_sleep_is_the_seconds_field s :
  let now := clock (world s) (ticks (world s)) in
  let reset := reset_datetime (self s) in
  slept (after limit_handler s) = (slept s ++ [EvSleep ((reset - now) mod 86400)])%list
  /\ (0 <= reset - now < 86400 -> (reset - now) mod 86400 = Z.max 0 (reset - now))
  /\ (- 86400 < reset - now < 0 ->
        (reset - now) mod 86400 = 86400 - (now - reset) /\ Z.max 0 (reset - now) = 0)
  /\ trace (world (after limit_handler s_late))
     = [EvSleep 86395; EvGet (api_url ++ "rate_limit") __headers].
Proof.
  cbv zeta. split; [ | split; [ | split ] ].
  - apply limit_handler_sleeps.
  - intros H. rewrite Z.mod_small by lia. lia.
  - intros H. split; [ | lia ].
    symmetry. apply (Z.mod_unique_pos _ _ (-1)); lia.
  - vm_compute. reflexivity.
Qed.

(** C4 (what the code does).  An iteration that ends in suspend-and-retry
    neither moves the cursor nor counts a request, but it keeps the page
    suffix it has appended to the URL: the retry appends it again, and
    requests the endpoint URL followed by the suffix twice, which is not
    the URL of the deferred request. *)
Theorem C4_retry_appends_the_page_again github_url checker save_path s ctl :
  status_code (response_of github_url s) = 403
  \/ (status_code (response_of github_url s) = 200 /\ remaining (self s) <= 1) ->
  outcome (paginating_iter github_url checker save_path) s = Ok ctl ->
  let s1 := after (paginating_iter github_url checker save_path) s in
  exists retry_url,
    ctl = Continue retry_url
    /\ retry_url ++ page_suffix (self s1)
       = github_url ++ page_suffix (self s) ++ page_suffix (self s)
    /\ retry_url ++ page_suffix (self s1) <> github_url ++ page_suffix (self s)
    /\ page (self s1) = page (self s)
    /\ total_requests (self s1) = total_requests (self s).
Proof.
  intros H Hout s1.
  destruct (suspended_iteration github_url checker save_path s H) as [Hafter Hctl].
  assert (Hpage : page (self s1) = page (self s)).
  { unfold s1. rewrite Hafter. apply (limit_handler_keeps_page (requested github_url s)). }
  assert (Hsuffix : page_suffix (self s1) = page_suffix (self s)).
  { unfold page_suffix. rewrite Hpage. reflexivity. }
  exists (github_url ++ page_suffix (self s)). split; [ | split; [ | split; [ | split ] ] ].
  - apply Hctl. exact Hout.
  - rewrite Hsuffix. apply append_assoc.
  - rewrite Hsuffix. intros E. apply (f_equal String.length) in E.
    rewrite !length_append in E. unfold page_suffix in E. rewrite length_append in E.
    cbn [String.length] in E. lia.
  - exact Hpage.
  - unfold s1. rewrite Hafter.
    apply (limit_handler_keeps_total_requests (requested github_url s)).
Qed.

(** After a 403 on page 1 the loop requests [...&page=1&page=1]. *)
Lemma C4_witness :
  urls (trace (world (after (paginating 3 workflows_endpoint (Some "workflows") workflows_path)
                            s_403)))
  = [workflows_endpoint ++ "&page=1"; api_url ++ "rate_limit";
     workflows_endpoint ++ "&page=1&page=1"]
  /\ exists retry_url,
      Continue (workflows_endpoint ++ "&page=1") = Continue retry_url
      /\ retry_url
           ++ page_suffix (self (after (paginating_iter workflows_endpoint (Some "workflows")
                                                         workflows_path) s_403))
         = workflows_endpoint ++ page_suffix (self s_403) ++ page_suffix (self s_403)
      /\ retry_url
           ++ page_suffix (self (after (paginating_iter workflows_endpoint (Some "workflows")
                                                         workflows_path) s_403))
         <> workflows_endpoint ++ page_suffix (self s_403)
      /\ page (self (after (paginating_iter workflows_endpoint (Some "workflows")
                                            workflows_path) s_403))
         = page (self s_403)
      /\ total_requests (self (after (paginating_iter workflows_endpoint (Some "workflows")
                                                      workflows_path) s_403))
         = total_requests (self s_403).
Proof.
  split.
  - vm_compute. reflexivity.
  - apply (C4_retry_appends_the_page_again workflows_endpoint (Some "workflows")
             workflows_path s_403 (Continue (workflows_endpoint ++ "&page=1"))).
    + left. reflexivity.
    + vm_compute. reflexivity.
Defined.

(** C5 (what the code does).  When the quota request is answered with a
    status other than 200, [get_limit] prints the status and the reason
    and assigns nothing, but [update_limit_variables] goes on to apply
    its margin to the values the instance already holds: [remaining]
    drops by 2 and [reset_datetime] moves 2 seconds on; [limit] alone is
    unchanged. *)
Theorem C5_margin_applied_to_stale_quota s :
  status_code (http (world s) (sent (world s)) (api_url ++ "rate_limit")) <> 200 ->
  let response := http (world s) (sent (world s)) (api_url ++ "rate_limit") in
  let s1 := after update_limit_variables s in
  outcome update_limit_variables s = Ok tt
  /\ remaining (self s1) = remaining (self s) - 2
  /\ reset_datetime (self s1) = reset_datetime (self s) + 2
  /\ limit (self s1) = limit (self s)
  /\ trace (world s1)
     = (trace (world s)
        ++ [EvGet (api_url ++ "rate_limit") __headers;
            EvPrint [PInt (status_code response)];
            EvPrint [PStr (reason response)]]
        ++ (if verbose (self s)
            then [EvPrint [PStr "Update limit handler variables."]]
            else []))%list.
Proof.
  intros Hst response s1.
  change (wp update_limit_variables
             (fun r s1 =>
                r = Ok tt
                /\ remaining (self s1) = remaining (self s) - 2
                /\ reset_datetime (self s1) = reset_datetime (self s) + 2
                /\ limit (self s1) = limit (self s)
                /\ trace (world s1)
                   = (trace (world s)
                      ++ [EvGet (api_url ++ "rate_limit") __headers;
                          EvPrint [PInt (status_code response)];
                          EvPrint [PStr (reason response)]]
                      ++ (if verbose (self s)
                          then [EvPrint [PStr "Update limit handler variables."]]
                          else []))%list) s).
  unfold update_limit_variables, get_limit. repeat wp_step.
  fold response.
  destruct (status_code response =? 200) eqn:E; [ apply Z.eqb_eq in E; contradiction | ].
  repeat wp_step.
  destruct (verbose (self s)); repeat wp_step; cbn [log answered trace];
    rewrite <- ?app_assoc; repeat split.
Qed.

(** With 10 requests remaining and a reset time of 2000, a quota request
    answered 500 leaves 8 and 2002. *)
Lemma C5_witness :
  status_code (http (world s_quota_down) (sent (world s_quota_down)) (api_url ++ "rate_limit"))
  <> 200
  /\ remaining (self (after update_limit_variables s_quota_down)) = 8
  /\ reset_datetime (self (after update_limit_variables s_quota_down)) = 2002.
Proof.
  assert (H : status_code (http (world s_quota_down) (sent (world s_quota_down))
                                (api_url ++ "rate_limit")) <> 200)
    by (vm_compute; discriminate).
  split; [ exact H | ].
  destruct (C5_margin_applied_to_stale_quota s_quota_down H) as (_ & Hr & Ht & _).
  split; [ exact Hr | exact Ht ].
Defined.

(** C6 (amended).  An iteration of [paginating] whose response has status
    200 and whose parsed body, after the envelope key is applied, is empty
    or absent, and which is not deferred by the limiter (the cached
    [remaining] is above 1), ends the loop normally: [paginating] returns,
    with no sink call and no file write for that page, without raising and
    without exiting. *)
Theorem C6_empty_page_ends_the_loop github_url checker save_path s j c :
  status_code (response_of github_url s) = 200 ->
  remaining (self s) > 1 ->
  body (response_of github_url s) = Some j ->
  extract checker j = inr c ->
  truthy c = false ->
  paginating_iter github_url checker save_path s = (Ok Break, stopped github_url s)
  /\ (forall fuel,
        paginating (S fuel) github_url checker save_path s = (Ok tt, stopped github_url s))
  /\ self (stopped github_url s) = self s
  /\ persisted (stopped github_url s) = persisted s.
Proof.
  intros Hst Hrem Hb He Ht.
  pose proof (paginating_iter_empty github_url checker save_path s j c Hst Hrem Hb He Ht)
    as Hiter.
  split; [ exact Hiter | split; [ | split ] ].
  - intros fuel. cbn [paginating]. unfold bind. rewrite Hiter. reflexivity.
  - reflexivity.
  - unfold persisted, stopped, requested.
    destruct (verbose (self s)); cbn [world log answered trace];
      rewrite ?filter_app; cbn [filter is_persist]; rewrite ?app_nil_r; reflexivity.
Qed.

(** With quota left, an empty [workflows] list ends the loop. *)
Lemma C6_witness :
  paginating_iter workflows_endpoint (Some "workflows") workflows_path s_last
  = (Ok Break, stopped workflows_endpoint s_last)
  /\ (forall fuel,
        paginating (S fuel) workflows_endpoint (Some "workflows") workflows_path s_last
        = (Ok tt, stopped workflows_endpoint s_last))
  /\ self (stopped workflows_endpoint s_last) = self s_last
  /\ persisted (stopped workflows_endpoint s_last) = persisted s_last.
Proof.
  apply (C6_empty_page_ends_the_loop workflows_endpoint (Some "workflows") workflows_path
           s_last no_workflows (JArr []));
    solve [ reflexivity | vm_compute; reflexivity ].
Defined.

(** C6 as stated fails when the cached quota is used up: with
    [remaining = 1], a 200 whose [workflows] list is empty does not end
    the loop; the iteration calls the limit handler, sleeps until the
    reset time and goes round the loop again. *)
Lemma C6_counterexample :
  status_code (response_of workflows_endpoint s_last_deferred) = 200
  /\ body (response_of workflows_endpoint s_last_deferred) = Some no_workflows
  /\ extract (Some "workflows") no_workflows = inr (JArr [])
  /\ truthy (JArr []) = false
  /\ outcome (paginating_iter workflows_endpoint (Some "workflows") workflows_path)
             s_last_deferred
     = Ok (Continue (workflows_endpoint ++ "&page=1"))
  /\ slept (after (paginating_iter workflows_endpoint (Some "workflows") workflows_path)
                  s_last_deferred)
     = [EvSleep 1000]
  /\ outcome (paginating_iter workflows_endpoint (Some "workflows") workflows_path)
             s_last_deferred
     <> Ok Break.
Proof.
  repeat split; try (vm_compute; reflexivity).
  vm_compute. discriminate.
Qed.

(** C7 (what the code does).  [get_all] fetches the repositories, the
    workflows and the runs, and then tests [not runs_object]: given a
    collection of runs it does nothing more, whatever the collection
    holds, and given [None] it fails on [None.objects()].  With one
    discovered run the only requests are those of the first three
    actions. *)
Theorem C7_discovered_runs_are_not_fetched :
  (forall fuel r s, get_all fuel (Some r) s = get_all fuel (Some {| objects := [] |}) s)
  /\ outcome (get_all 5 (Some one_run)) s_all = Ok tt
  /\ urls (trace (world (after (get_all 5 (Some one_run)) s_all)))
     = [repos_url (self s_all) ++ "&page=1";
        workflows_url (self s_all) ++ "&page=1";
        runs_url (self s_all) false ++ "&page=1"]
  /\ current_action (self (after (get_all 5 (Some one_run)) s_all)) = Some "runs"
  /\ outcome (get_all 5 None) s_all = Raise AttributeError.
Proof.
  split; [ | repeat split; vm_compute; reflexivity ].
  intros fuel r s. reflexivity.
Qed.

(** C8 (what the code does).  The templates of [repos] and [workflows]
    carry [per_page=N]; those of [runs], [jobs] and [artifacts] lack the
    [=], so that the request carries [per_page100] and no [per_page]
    parameter. *)
Theorem C8_per_page_without_equals :
  (forall fuel b save_path s, exists path,
      get_runs fuel b save_path s
      = paginating fuel (runs_url (self s) b) (Some "workflow_runs") path (entered "runs" s))
  /\ (forall fuel run_id save_path s, run_id <> 0 -> exists path,
      get_jobs fuel (Some run_id) save_path s
      = paginating fuel (jobs_url (self s) run_id) (Some "jobs") path (entered "jobs" s))
  /\ (forall fuel run_id save_path s, run_id <> 0 -> exists path,
      get_artifacts fuel (Some run_id) save_path s
      = paginating fuel (artifacts_url (self s) run_id) (Some "artifacts") path
                   (entered "artifacts" s))
  /\ runs_url (self s_all) false
     = "https://api.github.com/repos/apache/commons-lang/actions/runs?per_page100&exclude_pull_requests=False"
  /\ query_pairs (runs_url (self s_all) false) = ["per_page100"; "exclude_pull_requests=False"]
  /\ carries_per_page (runs_url (self s_all) false) 100 = false
  /\ carries_per_page (jobs_url (self s_all) 7) 100 = false
  /\ carries_per_page (artifacts_url (self s_all) 7) 100 = false
  /\ carries_per_page (repos_url (self s_all)) 100 = true
  /\ carries_per_page (workflows_url (self s_all)) 100 = true.
Proof.
  split; [ | split; [ | split ] ].
  - intros. eexists. apply get_runs_eq.
  - intros. eexists. apply get_jobs_eq. assumption.
  - intros. eexists. apply get_artifacts_eq. assumption.
  - repeat split; vm_compute; reflexivity.
Qed.

(** What [__init__] stores: the sink as it is given, and a token that is
    not empty. *)
Lemma init_stores a w g w' :
  __init__ a w = (Ok g, w') ->
  save_mongo g = arg_save_mongo a /\ truthy (token g) = true.
Proof.
  unfold __init__, bind, when, print, emit, sys_exit, raise, ret, requests_get,
    datetime_now, response_json, or_raise, lift_res.
  intros H.
  repeat match type of H with
         | context [match ?x with _ => _ end] =>
             destruct x eqn:?; try discriminate
         | context [if ?x then _ else _] =>
             destruct x eqn:?; try discriminate
         end.
  all: inversion H; subst; clear H; cbn [save_mongo token]; split; [ reflexivity | ].
  all: match goal with E : negb (truthy ?t) = false |- truthy ?t = true =>
         destruct (truthy t); [ reflexivity | discriminate ]
       end.
Qed.

(** C9 (what the code does).  The constructor resolves a token that is
    not empty, but nothing puts it into the headers: [__headers] has no
    [Authorization] entry, and no request of [get_limit] or [paginating]
    carries one.  After the construction of the [__main__] block, with the
    token read from [GITHUB_Token], the quota request and the first page
    request are sent with the [Accept] header alone. *)
Theorem C9_token_is_not_attached :
  dict_get "Authorization" __headers = None
  /\ (forall a w g w', __init__ a w = (Ok g, w') -> truthy (token g) = true)
  /\ (forall v s, authorized (after (get_limit v) s) = authorized s)
  /\ (forall fuel github_url checker save_path s,
        authorized (after (paginating fuel github_url checker save_path) s) = authorized s)
  /\ option_map (fun s => token (self s)) (constructed main_args main_world)
     = Some (JStr "ghp_token")
  /\ option_map (fun r => requests (trace (world (snd r)))) (main_run 3)
     = Some [(api_url ++ "rate_limit", [("Accept", "application/vnd.github.v3+json")]);
             (workflows_endpoint ++ "&page=1",
              [("Accept", "application/vnd.github.v3+json")])].
Proof.
  split; [ reflexivity | ]. split; [ | split; [ | split; [ | split ] ] ].
  - intros a w g w' H. apply (init_stores a w g w' H).
  - intros v s. apply (get_limit_keeps_trace is_authorized); intros; reflexivity.
  - intros fuel github_url checker save_path s.
    apply (paginating_keeps_trace is_authorized); intros; reflexivity.
  - vm_compute. reflexivity.
  - vm_compute. reflexivity.
Qed.

(** C10.  The sink is called on every page that is consumed -- after a 200
    with non-empty content, on an iteration that is not deferred, the
    first thing done is [self.save_mongo(response_JSON, self.current_action)],
    with no test that there is a sink -- while the constructor stores
    [save_mongo] as it comes, [None] by default.  On an instance without a
    sink such an iteration therefore raises [TypeError] from the call of
    [None], with nothing written and no message printed, and so does
    [paginating]: it neither returns nor exits. *)
Theorem C10_sink_is_an_unchecked_precondition :
  arg_save_mongo default_args = None
  /\ (forall a w g w', __init__ a w = (Ok g, w') -> save_mongo g = arg_save_mongo a)
  /\ (forall github_url checker save_path s j c f,
        status_code (response_of github_url s) = 200 ->
        remaining (self s) > 1 ->
        body (response_of github_url s) = Some j ->
        extract checker j = inr c ->
        truthy c = true ->
        save_mongo (self s) = Some f ->
        persisted (after (paginating_iter github_url checker save_path) s)
        = (persisted s ++ [EvSink f c (current_action (self s));
                           EvWrite (page_file save_path (self s)) c])%list)
  /\ (forall github_url checker save_path s j c,
        status_code (response_of github_url s) = 200 ->
        remaining (self s) > 1 ->
        body (response_of github_url s) = Some j ->
        extract checker j = inr c ->
        truthy c = true ->
        save_mongo (self s) = None ->
        paginating_iter github_url checker save_path s
        = (Raise TypeError, requested github_url s)
        /\ (forall fuel,
              paginating (S fuel) github_url checker save_path s
              = (Raise TypeError, requested github_url s))
        /\ persisted (requested github_url s) = persisted s)
  /\ (forall save_path,
        fails_without_sink "repos" None repos_url
          (fun fuel => get_owner_repostries fuel save_path))
  /\ (forall save_path,
        fails_without_sink "workflows" (Some "workflows") workflows_url
          (fun fuel => get_workflows fuel save_path))
  /\ (forall b save_path,
        fails_without_sink "runs" (Some "workflow_runs") (fun g => runs_url g b)
          (fun fuel => get_runs fuel b save_path))
  /\ (forall run_id save_path, run_id <> 0 ->
        fails_without_sink "jobs" (Some "jobs") (fun g => jobs_url g run_id)
          (fun fuel => get_jobs fuel (Some run_id) save_path))
  /\ (forall run_id save_path, run_id <> 0 ->
        fails_without_sink "artifacts" (Some "artifacts") (fun g => artifacts_url g run_id)
          (fun fuel => get_artifacts fuel (Some run_id) save_path)).
Proof.
  assert (Hfetch : forall action checker url path s fuel j c,
             save_mongo (self s) = None ->
             status_code (response_of url (entered action s)) = 200 ->
             remaining (self s) > 1 ->
             body (response_of url (entered action s)) = Some j ->
             extract checker j = inr c ->
             truthy c = true ->
             paginating (S fuel) url checker path (entered action s)
             = (Raise TypeError, requested url (entered action s))).
  { intros action checker url path s fuel j c Hsink Hst Hrem Hb He Ht.
    cbn [paginating]. unfold bind.
    rewrite (paginating_iter_no_sink url checker path (entered action s) j c);
      solve [ assumption | reflexivity ]. }
  split; [ reflexivity | ].
  split; [ intros a w g w' H; apply (init_stores a w g w' H) | ].
  split.
  { intros github_url checker save_path s j c f Hst Hrem Hb He Ht Hsink.
    apply (paginating_iter_consume github_url checker save_path s j c f); assumption. }
  split.
  { intros github_url checker save_path s j c Hst Hrem Hb He Ht Hsink.
    pose proof (paginating_iter_no_sink github_url checker save_path s j c
                  Hst Hrem Hb He Ht Hsink) as Hiter.
    split; [ exact Hiter | split ].
    - intros fuel. cbn [paginating]. unfold bind. rewrite Hiter. reflexivity.
    - unfold persisted, requested.
      destruct (verbose (self s)); cbn [world log answered trace];
        rewrite ?filter_app; cbn [filter is_persist]; rewrite ?app_nil_r; reflexivity. }
  repeat split.
  - intros save_path fuel s j c. rewrite get_owner_repostries_eq. apply Hfetch.
  - intros save_path fuel s j c. rewrite get_workflows_eq. apply Hfetch.
  - intros b save_path fuel s j c. rewrite get_runs_eq. apply Hfetch.
  - intros run_id save_path Hid fuel s j c. rewrite get_jobs_eq by assumption.
    apply Hfetch.
  - intros run_id save_path Hid fuel s j c. rewrite get_artifacts_eq by assumption.
    apply Hfetch.
Qed.

(** The instance of the [__main__] block is built without a sink; its
    first fetch, of a page of one workflow, ends in [TypeError]. *)
Lemma C10_witness :
  (exists g w, __init__ main_args main_world = (Ok g, w) /\ save_mongo g = None)
  /\ option_map fst (main_run 3) = Some (Raise TypeError)
  /\ paginating_iter workflows_endpoint (Some "workflows") workflows_path s_no_sink
     = (Raise TypeError, requested workflows_endpoint s_no_sink).
Proof.
  destruct C10_sink_is_an_unchecked_precondition as (_ & Hinit & _ & Hraise & _).
  split; [ | split ].
  - destruct (__init__ main_args main_world) as [[g | c | e | ] w] eqn:E;
      try (vm_compute in E; discriminate).
    exists g, w. split; [ reflexivity | ].
    rewrite (Hinit main_args main_world g w E). reflexivity.
  - vm_compute. reflexivity.
  - apply (Hraise workflows_endpoint (Some "workflows") workflows_path s_no_sink
                  one_workflow (JArr [JObj [("id", JNum 7)]]));
      solve [ reflexivity | vm_compute; reflexivity ].
Defined.
